(** * Risk Adjustment Model Runner: result derivation and presentation

    A shallow embedding of [streamlit_app.py].  The application is a thin
    layer over three libraries (pandas, plotly, streamlit) and over the
    Python runtime (binary64 floats, [round], [str], [json]); the parts of
    those that the application's behaviour depends on are modelled first,
    then the application's functions, one definition per source function,
    under the source's names. *)

From Stdlib Require Import ZArith List String Ascii Bool Lia.
From Stdlib Require Import SpecFloat DecimalString.
From Stdlib Require DecimalFacts DecimalPos DecimalN.
Import ListNotations.
Open Scope Z_scope.

(** ** Python exceptions and fallible results *)

Inductive exn : Type :=
  | ZeroDivisionError
  | ValueError
  | EngineError (msg : string).

Inductive res (A : Type) : Type :=
  | Ok (a : A)
  | Raise (e : exn).
Arguments Ok {A} a.
Arguments Raise {A} e.

(** ** Python floats: IEEE 754 binary64

    Arithmetic is the Standard Library's executable specification
    [SpecFloat] at precision 53 and maximal exponent 1024.  Conversions
    from decimal text ([float(...)], the second half of [round]) are
    correctly rounded, ties to even. *)

Module PyFloat.

Definition prec : Z := 53.
Definition emax : Z := 1024.
Definition emin : Z := 3 - emax - prec.

Definition float : Type := spec_float.

Definition add : float -> float -> float := SFadd prec emax.
Definition sub : float -> float -> float := SFsub prec emax.
Definition mul : float -> float -> float := SFmul prec emax.
Definition div : float -> float -> float := SFdiv prec emax.

(** [x == y], [x <= y] on floats: false as soon as one side is a NaN. *)
Definition eqb : float -> float -> bool := SFeqb.
Definition leb : float -> float -> bool := SFleb.

(** Identity of two floats as data (the same bits, NaN included). *)
Definition same (x y : float) : bool :=
  match x, y with
  | S754_zero s, S754_zero t => Bool.eqb s t
  | S754_infinity s, S754_infinity t => Bool.eqb s t
  | S754_nan, S754_nan => true
  | S754_finite s m e, S754_finite t n f =>
      Bool.eqb s t && Pos.eqb m n && Z.eqb e f
  | _, _ => false
  end.


(** [a / b]: Python raises on a zero divisor of either sign and otherwise
    performs the IEEE division (overflow gives an infinity silently). *)
Definition truediv (a b : float) : res float :=
  if eqb b (S754_zero false) then Raise ZeroDivisionError else Ok (div a b).

(** Quotient of two positive integers rounded to the nearest integer,
    ties to the even one. *)
Definition div_half_even (a b : Z) : Z :=
  let q := a / b in
  match (2 * (a mod b)) ?= b with
  | Lt => q
  | Eq => if Z.even q then q else q + 1
  | Gt => q + 1
  end.

(** [floor (log2 (a / b))] for positive [a] and [b]. *)
Definition log2_ratio (a b : Z) : Z :=
  let d := Z.log2 a - Z.log2 b in
  if (if 0 <=? d then b * 2 ^ d <=? a else b <=? a * 2 ^ (- d))
  then d else d - 1.

(** The binary64 nearest to [(-1)^s * a / b]  (as [strtod] computes it):
    exponent from the magnitude, mantissa by one correctly rounded
    division, a carry out of the mantissa moves to the next binade, and a
    result beyond the largest finite float is an infinity. *)
Definition nearest_float (s : bool) (a b : Z) : float :=
  if a <=? 0 then S754_zero s else
  let e := Z.max (log2_ratio a b + 1 - prec) emin in
  let m := if 0 <=? e then div_half_even a (b * 2 ^ e)
           else div_half_even (a * 2 ^ (- e)) b in
  let '(m', e') := if m =? 2 ^ prec then (2 ^ (prec - 1), e + 1) else (m, e) in
  match m' with
  | Zpos p => if e' <=? emax - prec then S754_finite s p e' else S754_infinity s
  | _ => S754_zero s
  end.

(** The float written [n * 10^k] in decimal. *)
Definition of_decimal (s : bool) (n k : Z) : float :=
  if 0 <=? k then nearest_float s (n * 10 ^ k) 1
  else nearest_float s n (10 ^ (- k)).

(** The float of an integer. *)
Definition of_Z (z : Z) : float := of_decimal (z <? 0) (Z.abs z) 0.

(** [round(x, ndigits)] for [ndigits >= 0]  (float.__round__): NaN and the
    infinities round to themselves; a finite [x] is rounded, on its exact
    value and ties to even, to [ndigits] decimals, and the decimal obtained
    is converted back to the nearest float.  The sign of [x] is kept, so a
    small negative number rounds to [-0.0].  Above 323 digits every float is
    returned unchanged.  (With [ndigits >= 0] the conversion back cannot
    overflow, so no error is raised.) *)
Definition round (x : float) (ndigits : nat) : float :=
  match x with
  | S754_finite s m e =>
      if (323 <? Z.of_nat ndigits) then x else
      let p := 10 ^ Z.of_nat ndigits in
      let n := if 0 <=? e then Zpos m * 2 ^ e * p
               else div_half_even (Zpos m * p) (2 ^ (- e)) in
      nearest_float s n p
  | _ => x
  end.

(** *** [repr(x)]: the shortest decimal text that reads back as [x] *)

Definition digits_of_Z (z : Z) : string :=
  NilZero.string_of_uint (N.to_uint (Z.to_N z)).

Definition nb_digits (z : Z) : Z := Z.of_nat (String.length (digits_of_Z z)).

(** [floor (log10 (a / b))] for positive [a] and [b]. *)
Definition log10_ratio (a b : Z) : Z :=
  if b <=? a then nb_digits (a / b) - 1 else - nb_digits ((b - 1) / a).

(** [a / (b * 10^j)] as a fraction of integers. *)
Definition scaled (a b j : Z) : Z * Z :=
  if 0 <=? j then (a, b * 10 ^ j) else (a * 10 ^ (- j), b).

Definition round_trips (x : float) (c j : Z) : bool :=
  same (of_decimal false c j) (SFabs x).

(** Search, for [n], [n + 1], ... significant digits, a decimal [c * 10^j]
    of that many digits that reads back as [a / b = |x|]: the nearest
    one first, then its neighbour on the other side of [|x|]. *)
Fixpoint shortest (fuel : nat) (x : float) (a b p10 n : Z) : option (Z * Z) :=
  match fuel with
  | O => None
  | S fuel' =>
      let j := p10 - n + 1 in
      let '(num, den) := scaled a b j in
      let c := div_half_even num den in
      let lo := num / den in
      let c' := if c =? lo then lo + 1 else lo in
      if round_trips x c j then Some (c, j)
      else if round_trips x c' j then Some (c', j)
      else shortest fuel' x a b p10 (n + 1)
  end.

(** The exact value [m * 2^e] as a fraction and as a decimal. *)
Definition ratio_of (m : positive) (e : Z) : Z * Z :=
  if 0 <=? e then (Zpos m * 2 ^ e, 1) else (Zpos m, 2 ^ (- e)).

Definition exact_decimal (m : positive) (e : Z) : Z * Z :=
  if 0 <=? e then (Zpos m * 2 ^ e, 0) else (Zpos m * 5 ^ (- e), e).

(** Seventeen significant digits identify every binary64, so the search
    succeeds; the exact expansion closes the definition. *)
Definition shortest_decimal (x : float) (m : positive) (e : Z) : Z * Z :=
  let '(a, b) := ratio_of m e in
  match shortest 17 x a b (log10_ratio a b) 1 with
  | Some cj => cj
  | None => exact_decimal m e
  end.

Fixpoint strip_zeros_rev (r : list ascii) : list ascii :=
  match r with
  | "0"%char :: r' => strip_zeros_rev r'
  | _ => r
  end.

Definition strip_trailing_zeros (s : string) : string :=
  string_of_list_ascii
    (rev (strip_zeros_rev (rev (list_ascii_of_string s)))).

Fixpoint zeros (n : nat) : string :=
  match n with
  | O => EmptyString
  | S n' => String "0" (zeros n')
  end.

(** The exponent of the scientific form: a sign and at least two digits. *)
Definition exponent_text (x : Z) : string :=
  ((if (x <? 0)%Z then "-" else "+") ++
   (if (Z.abs x <? 10)%Z then "0" else "") ++ digits_of_Z (Z.abs x))%string.

(** Layout of the digits [ds] of a number [0.ds * 10^decpt]: scientific
    form when [decpt <= -4] or [decpt > 16], positional form otherwise,
    with [.0] appended to an integer. *)
Definition format_short (ds : string) (decpt : Z) : string :=
  let n := Z.of_nat (String.length ds) in
  (if ((decpt <=? -4) || (16 <? decpt))%Z then
     String.substring 0 1 ds ++
     (if (1 <? n)%Z then "." ++ String.substring 1 (String.length ds - 1) ds
      else "") ++
     "e" ++ exponent_text (decpt - 1)
   else if (decpt <=? 0)%Z then
     "0." ++ zeros (Z.to_nat (- decpt)) ++ ds
   else if (n <=? decpt)%Z then
     ds ++ zeros (Z.to_nat (decpt - n)) ++ ".0"
   else
     String.substring 0 (Z.to_nat decpt) ds ++ "." ++
     String.substring (Z.to_nat decpt) (String.length ds - Z.to_nat decpt) ds
  )%string.

Definition repr (x : float) : string :=
  match x with
  | S754_nan => "nan"
  | S754_infinity s => if s then "-inf" else "inf"
  | S754_zero s => if s then "-0.0" else "0.0"
  | S754_finite s m e =>
      let '(c, j) := shortest_decimal x m e in
      let all := digits_of_Z c in
      ((if s then "-" else "") ++
       format_short (strip_trailing_zeros all)
                    (Z.of_nat (String.length all) + j))%string
  end.

End PyFloat.

Open Scope string_scope.

(** ** Python strings, dictionaries and values

    A [str] is a [string] whose characters are the code points below 256.
    A [dict] keeps its keys in insertion order: an association list with
    at most one entry per key. *)

Definition quote : ascii := "034"%char.
Definition newline : ascii := "010"%char.

Fixpoint join (sep : string) (l : list string) : string :=
  match l with
  | [] => ""
  | [s] => s
  | s :: l' => s ++ sep ++ join sep l'
  end.

(** [s.split(sep)] with an explicit separator: the text between the
    occurrences of [sep], scanned from the left, empty pieces kept. *)
Fixpoint split_aux (sep : string) (skip : nat) (cur s : string) : list string :=
  match s with
  | EmptyString => [cur]
  | String c s' =>
      match skip with
      | S k => split_aux sep k cur s'
      | O =>
          if String.prefix sep s
          then cur :: split_aux sep (String.length sep - 1) "" s'
          else split_aux sep 0 (cur ++ String c "") s'
      end
  end.

Definition split (s sep : string) : res (list string) :=
  match sep with
  | EmptyString => Raise ValueError
  | _ => Ok (split_aux sep 0 "" s)
  end.

Definition dict (V : Type) : Type := list (string * V).

Definition keys {V : Type} (d : dict V) : list string := map fst d.

Fixpoint dict_get {V : Type} (k : string) (d : dict V) : option V :=
  match d with
  | [] => None
  | (k', v) :: d' => if String.eqb k k' then Some v else dict_get k d'
  end.

(** [d[k] = v]: an existing key keeps its place, a new one goes last. *)
Fixpoint dict_set {V : Type} (k : string) (v : V) (d : dict V) : dict V :=
  match d with
  | [] => [(k, v)]
  | (k', v') :: d' =>
      if String.eqb k k' then (k, v) :: d' else (k', v') :: dict_set k v d'
  end.


(** The values a scoring result is made of. *)
#[local] Unset Elimination Schemes.
Inductive value : Type :=
  | VNone
  | VBool (b : bool)
  | VInt (z : Z)
  | VFloat (x : PyFloat.float)
  | VStr (s : string)
  | VList (l : list value)
  | VDict (d : list (string * value)).
#[local] Set Elimination Schemes.

(** ** The scoring result *)

(** Modelled from the spec: the [Result] dataclass is declared by the
    [risk_adjustment_model] package, which is not part of this program; it
    has the seven attributes of the spec's data model, in that order. *)
Record Result : Type := {
  score : PyFloat.float;
  score_raw : PyFloat.float;
  disease_score : PyFloat.float;
  demographic_score : PyFloat.float;
  disease_score_raw : PyFloat.float;
  demographic_score_raw : PyFloat.float;
  category_details : dict (dict value)
}.

(** [dataclasses.asdict]: one entry per attribute, in declaration order;
    dictionaries and lists are copied as they are. *)
Definition asdict (r : Result) : value :=
  VDict [ ("score", VFloat (score r));
          ("score_raw", VFloat (score_raw r));
          ("disease_score", VFloat (disease_score r));
          ("demographic_score", VFloat (demographic_score r));
          ("disease_score_raw", VFloat (disease_score_raw r));
          ("demographic_score_raw", VFloat (demographic_score_raw r));
          ("category_details",
           VDict (map (fun kv => (fst kv, VDict (snd kv))) (category_details r))) ].

(** ** [json.dumps]  (default options, with an indent) *)

Module json.

Definition hex_digit (n : nat) : ascii :=
  match n with
  | 0%nat => "0" | 1%nat => "1" | 2%nat => "2" | 3%nat => "3"
  | 4%nat => "4" | 5%nat => "5" | 6%nat => "6" | 7%nat => "7"
  | 8%nat => "8" | 9%nat => "9" | 10%nat => "a" | 11%nat => "b"
  | 12%nat => "c" | 13%nat => "d" | 14%nat => "e" | _ => "f"
  end%char.

(** One character inside a string literal ([ensure_ascii] is on): the
    short escapes, the printable ASCII characters as they are, and
    [\u00XX] for every other code point. *)
Definition escape_char (c : ascii) : string :=
  let n := nat_of_ascii c in
  if Ascii.eqb c quote then String "\" (String quote "")
  else if Ascii.eqb c "\" then "\\"
  else if Ascii.eqb c newline then "\n"
  else if Ascii.eqb c "013" then "\r"
  else if Ascii.eqb c "009" then "\t"
  else if Ascii.eqb c "008" then "\b"
  else if Ascii.eqb c "012" then "\f"
  else if ((n <? 32) || (126 <? n))%nat then
    "\u00" ++ String (hex_digit (n / 16)) (String (hex_digit (n mod 16)) "")
  else String c "".

Fixpoint escape (s : string) : string :=
  match s with
  | EmptyString => ""
  | String c s' => escape_char c ++ escape s'
  end.

Definition encode_basestring_ascii (s : string) : string :=
  String quote (escape s ++ String quote "").

(** [int.__repr__] *)
Definition int_repr (z : Z) : string := NilZero.string_of_int (Z.to_int z).

(** A float is written with [float.__repr__], the three non-finite
    values under their JavaScript names. *)
Definition floatstr (x : PyFloat.float) : string :=
  match x with
  | S754_nan => "NaN"
  | S754_infinity false => "Infinity"
  | S754_infinity true => "-Infinity"
  | _ => PyFloat.repr x
  end.

Fixpoint spaces (n : nat) : string :=
  match n with
  | O => ""
  | S n' => String " " (spaces n')
  end.

Definition newline_indent (indent level : nat) : string :=
  String newline (spaces (indent * level)).

(** The encoder: an empty container on one line, otherwise one item per
    line, one level deeper, separated by commas; a key and its value are
    separated by a colon and a space. *)
Fixpoint encode (indent level : nat) (v : value) : string :=
  match v with
  | VNone => "null"
  | VBool true => "true"
  | VBool false => "false"
  | VInt z => int_repr z
  | VFloat x => floatstr x
  | VStr s => encode_basestring_ascii s
  | VList [] => "[]"
  | VList l =>
      "[" ++ newline_indent indent (S level) ++
      join ("," ++ newline_indent indent (S level))
           (map (encode indent (S level)) l) ++
      newline_indent indent level ++ "]"
  | VDict [] => "{}"
  | VDict d =>
      "{" ++ newline_indent indent (S level) ++
      join ("," ++ newline_indent indent (S level))
           (map (fun kv => encode_basestring_ascii (fst kv) ++ ": " ++
                           encode indent (S level) (snd kv)) d) ++
      newline_indent indent level ++ "}"
  end.

Definition dumps (obj : value) (indent : nat) : string := encode indent 0 obj.

(** *** [json.loads]

    The decoder reads a value at the head of the text and returns it with
    the text that follows; [None] stands for a JSONDecodeError.  The
    recursion of the scanner is bounded by the length of the text. *)




Definition digit_val (c : ascii) : Z := (Z.of_nat (nat_of_ascii c) - 48)%Z.


(** The number a text of digits denotes. *)
Fixpoint read_digits (acc : Z) (s : string) : Z :=
  match s with
  | EmptyString => acc
  | String c s' => read_digits (10 * acc + digit_val c)%Z s'
  end.
















End json.

(** ** pandas: [DataFrame.from_dict(data, orient="index")] *)

Module pd.

(** A frame: row labels, column labels, and the cells column by column;
    a cell with no entry is missing (shown as NaN). *)
Record DataFrame : Type := {
  index : list string;
  columns : list string;
  cells : dict (dict value)
}.

Definition at_ (df : DataFrame) (row col : string) : option value :=
  match dict_get col (cells df) with
  | Some column => dict_get row column
  | None => None
  end.

(** [new_data[col][index] = v] on a [defaultdict(dict)]. *)
Definition set_cell (col row : string) (v : value) (new_data : dict (dict value))
  : dict (dict value) :=
  match dict_get col new_data with
  | Some column => dict_set col (dict_set row v column) new_data
  | None => dict_set col [(row, v)] new_data
  end.

(** The transposition of the nested dictionary: for each outer key and
    each of its attributes, one cell.  An outer key whose record is empty
    leaves no trace. *)
Definition _from_nested_dict (data : dict (dict value)) : dict (dict value) :=
  fold_left
    (fun new_data '(row, s) =>
       fold_left (fun nd '(col, v) => set_cell col row v nd) s new_data)
    data [].

(** The union of the columns' row labels, in order of first appearance. *)
Definition add_label (acc : list string) (k : string) : list string :=
  if existsb (String.eqb k) acc then acc else acc ++ [k].

Definition union_indexes (indexes : list (list string)) : list string :=
  fold_left (fun acc ix => fold_left add_label ix acc) indexes [].

(** [from_dict] with [orient="index"] on a dictionary of dictionaries
    builds the frame from the transposed data: the columns are its keys,
    the rows are the labels that occur in some column. *)
Definition from_dict (data : dict (dict value)) : DataFrame :=
  let new_data := _from_nested_dict data in
  {| index := union_indexes (map (fun c => keys (snd c)) new_data);
     columns := keys new_data;
     cells := new_data |}.

(** A row of the frame, cell by cell along the columns. *)
Definition row (df : DataFrame) (r : string) : list (option value) :=
  map (at_ df r) (columns df).

End pd.

(** ** plotly: figure descriptions *)

Module go.

Record Bar : Type := {
  x : list string;
  y : list PyFloat.float;
  name : string;
  marker_color : option string;
  hovertemplate : option string
}.

Record Pie : Type := {
  labels : list string;
  values : list PyFloat.float;
  hole : PyFloat.float
}.

Inductive trace : Type :=
  | BarTrace (b : Bar)
  | PieTrace (p : Pie).

Record Layout : Type := {
  title_text : option string;
  xaxis_title : option string;
  yaxis_title : option string;
  barmode : option string
}.

Record Figure : Type := {
  data : list trace;
  layout : Layout
}.

Definition empty_layout : Layout :=
  {| title_text := None; xaxis_title := None; yaxis_title := None;
     barmode := None |}.

(** [go.Figure(data=...)] *)
Definition Figure_ (traces : list trace) : Figure :=
  {| data := traces; layout := empty_layout |}.

Definition add_trace (fig : Figure) (t : trace) : Figure :=
  {| data := data fig ++ [t]; layout := layout fig |}.

Definition update_layout (fig : Figure) (new : Layout) : Figure :=
  let old := layout fig in
  let pick (a b : option string) := match a with Some _ => a | None => b end in
  {| data := data fig;
     layout := {| title_text := pick (title_text new) (title_text old);
                  xaxis_title := pick (xaxis_title new) (xaxis_title old);
                  yaxis_title := pick (yaxis_title new) (yaxis_title old);
                  barmode := pick (barmode new) (barmode old) |} |}.

End go.

(** ** streamlit: the page as the list of elements written so far *)

Module st.

Inductive container : Type :=
  | Main
  | Sidebar
  | Column (i n : nat).

Inductive element : Type :=
  | Title (text : string)
  | Markdown (text : string)
  | Text (text : string)
  | Frame (df : pd.DataFrame)
  | SelectBox (label : string) (options : list value)
  | NumberInput (label : string) (min_value max_value : option Z) (step : Z)
  | TextInput (label : string)
  | Button (label : string)
  | Columns (n : nat)
  | PlotlyChart (fig : go.Figure) (use_container_width : bool)
  | DownloadButton (label data file_name mime : string).

End st.

(** The scoring engine, as the application calls it. *)
Inductive Model : Type :=
  | MedicareModelV24 (year : Z)
  | MedicareModelV28 (year : Z).

Record ScoreCall : Type := {
  call_model : Model;
  call_gender : string;
  call_orec : string;
  call_age : Z;
  call_medicaid : bool;
  call_population : string;
  call_diagnosis_codes : list string;
  call_verbose : bool
}.

(** What one run of the script has done: the elements on the page and
    the calls made to the engine, both oldest first. *)
Record Session : Type := {
  page : list (st.container * st.element);
  calls : list ScoreCall
}.

Definition App (A : Type) : Type := Session -> Session * res A.

Definition ret {A : Type} (a : A) : App A := fun s => (s, Ok a).

Definition raise {A : Type} (e : exn) : App A := fun s => (s, Raise e).

Definition bind {A B : Type} (c : App A) (k : A -> App B) : App B :=
  fun s =>
    match c s with
    | (s', Ok a) => k a s'
    | (s', Raise e) => (s', Raise e)
    end.

Notation "x <- c ;; k" := (bind c (fun x => k))
  (at level 61, c at next level, right associativity).
Notation "c ;; k" := (bind c (fun _ => k))
  (at level 61, right associativity).

Definition lift {A : Type} (r : res A) : App A := fun s => (s, r).

Definition emit (c : st.container) (e : st.element) : App unit :=
  fun s => ({| page := page s ++ [(c, e)]; calls := calls s |}, Ok tt).

(** The values the user has entered in the widgets. *)
Record Inputs : Type := {
  in_model_version : string;
  in_gender : string;
  in_orec : Z;
  in_age : Z;
  in_medicaid : bool;
  in_diagnosis_codes : string;
  in_year : Z;
  in_population : string;
  in_calculate : bool
}.

(** ** The application *)

Definition display_score_results (result : Result) : App unit :=
  let score_results : dict (dict value) :=
    [ ("Adjusted",
       [ ("Score", VFloat (score result));
         ("Disease Score", VFloat (disease_score result));
         ("Demographic Score", VFloat (demographic_score result)) ]);
      ("Unadjusted",
       [ ("Score", VFloat (score_raw result));
         ("Disease Score", VFloat (disease_score_raw result));
         ("Demographic Score", VFloat (demographic_score_raw result)) ]) ] in
  emit st.Main (st.Text "Scores Table") ;;
  let df := pd.from_dict score_results in
  emit st.Main (st.Frame df).

Definition display_category_details (category_details : dict (dict value))
  : App unit :=
  emit st.Main (st.Text "Category Details Table") ;;
  let df := pd.from_dict category_details in
  emit st.Main (st.Frame df).

Definition score_comparison (result : Result) : go.Figure :=
  let score := score result in
  let unadjusted_score := score_raw result in
  let fig := go.Figure_ [] in
  let fig := go.add_trace fig
    (go.BarTrace {| go.x := ["Unadjusted Score"];
                    go.y := [unadjusted_score];
                    go.name := "Unadjusted Score";
                    go.marker_color := Some "lightsalmon";
                    go.hovertemplate := None |}) in
  let fig := go.add_trace fig
    (go.BarTrace {| go.x := ["Score"];
                    go.y := [score];
                    go.name := "Score";
                    go.marker_color := Some "indianred";
                    go.hovertemplate := None |}) in
  go.update_layout fig
    {| go.title_text := Some "Unadjusted Score vs Score";
       go.xaxis_title := Some "Score Type";
       go.yaxis_title := Some "Score";
       go.barmode := Some "group" |}.

(** The two proportions, as both chart builders compute them in their
    first two lines:
      [disease_score_pct = round(result.disease_score / result.score, 3)]
      [demographic_score_pct = 1 - disease_score_pct]. *)
Definition derived_proportions (result : Result)
  : res (PyFloat.float * PyFloat.float) :=
  match PyFloat.truediv (disease_score result) (score result) with
  | Raise e => Raise e
  | Ok q =>
      let disease_score_pct := PyFloat.round q 3 in
      let demographic_score_pct :=
        PyFloat.sub (PyFloat.of_Z 1) disease_score_pct in
      Ok (disease_score_pct, demographic_score_pct)
  end.

(** The f-string of a hover template; a float between braces is written
    with [str], which for a float is [repr]. *)
Definition hover_template (pct : PyFloat.float) : string :=
  "Value: %{y}<br>Pct of Score: " ++
  PyFloat.repr (PyFloat.mul pct (PyFloat.of_Z 100)) ++
  "%<extra></extra>".

Definition score_breakdown (result : Result) : res go.Figure :=
  match derived_proportions result with
  | Raise e => Raise e
  | Ok (disease_score_pct, demographic_score_pct) =>
      let categories := ["Score"] in
      let hover_template1 := hover_template disease_score_pct in
      let hover_template2 := hover_template demographic_score_pct in
      let fig := go.Figure_
        [ go.BarTrace {| go.name := "Disease Score";
                         go.x := categories;
                         go.y := [disease_score result];
                         go.marker_color := None;
                         go.hovertemplate := Some hover_template1 |};
          go.BarTrace {| go.name := "Demographic Score";
                         go.x := categories;
                         go.y := [demographic_score result];
                         go.marker_color := None;
                         go.hovertemplate := Some hover_template2 |} ] in
      Ok (go.update_layout fig
            {| go.barmode := Some "stack";
               go.title_text := Some "Disease vs Demographic Score";
               go.xaxis_title := None;
               go.yaxis_title := None |})
  end.

Definition display_score_breakdown (result : Result) : App unit :=
  let fig1 := score_comparison result in
  fig2 <- lift (score_breakdown result) ;;
  emit st.Main (st.Columns 2) ;;
  emit (st.Column 0 2) (st.PlotlyChart fig1 true) ;;
  emit (st.Column 1 2) (st.PlotlyChart fig2 true).

Definition display_score_breakdown_pct (result : Result) : App unit :=
  pcts <- lift (derived_proportions result) ;;
  let '(disease_score_pct, demographic_score_pct) := pcts in
  let labels := ["Disease Score"; "Demographic Score"] in
  let values := [disease_score_pct; demographic_score_pct] in
  let fig := go.Figure_
    [ go.PieTrace {| go.labels := labels;
                     go.values := values;
                     go.hole := PyFloat.of_decimal false 3 (-1) |} ] in
  let fig := go.update_layout fig
    {| go.title_text := Some "Scores Proportion";
       go.xaxis_title := None; go.yaxis_title := None;
       go.barmode := None |} in
  emit st.Main (st.PlotlyChart fig false).

Definition download_results (results : Result) : App unit :=
  let result_dict := asdict results in
  let json_str := json.dumps result_dict 4 in
  emit st.Main
    (st.DownloadButton "Download JSON" json_str "results.json"
                       "application/json").

(** The widgets: each one is written to the sidebar and returns what the
    user has entered. *)
Definition selectbox (label : string) (options : list value) {A : Type}
  (chosen : A) : App A :=
  emit st.Sidebar (st.SelectBox label options) ;; ret chosen.

Definition number_input (label : string) (min_value max_value : option Z)
  (step : Z) (entered : Z) : App Z :=
  emit st.Sidebar (st.NumberInput label min_value max_value step) ;; ret entered.

Definition text_input (label : string) (entered : string) : App string :=
  emit st.Sidebar (st.TextInput label) ;; ret entered.

Definition button (label : string) (pressed : bool) : App bool :=
  emit st.Sidebar (st.Button label) ;; ret pressed.

(** [model.score(...)]: the call is recorded and the engine answers. *)
Definition score_with (engine : ScoreCall -> res Result) (call : ScoreCall)
  : App Result :=
  fun s => ({| page := page s; calls := calls s ++ [call] |}, engine call).

Definition intro_text : string := "
        This is a webapp to run the risk adjustment models found in the PyPI project [risk_adjustment_model](https://pypi.org/project/risk_adjustment_model/).
        Please see the PyPI page for more details about the model if you have questions.

        If an issue is found with the scoring results, please submit an here on the [risk_adjustment_model Github page](https://github.com/pfehlinger/risk_adjustment_model).

        For issues or ideas related to the webapp, please submit an issue on the [webapp Github page](https://github.com/pfehlinger/risk_adjustment_model_webapp).

        Note: A github account is required to submit issues

        Please see sidebar to set parameters and press the button to calculate score.

        ## Scoring Results
    ".

Definition model_selection_text : string := "
        ## Model Selection

        Choose which model you would like to run. Options are:
        - V24: 2020 CMS Community Model
        - V28: 2024 CMS Community Model
        ".

Definition model_inputs_text : string := "
        ## Model Inputs

        Enter the inputs to run the Medicare Risk Adjustment Model.
        ".

Definition orec_link : string :=
  "[OREC Definition and Values](https://resdac.org/cms-data/variables/medicare-original-reason-entitlement-code-orec)".

Definition population_text : string := "
        Here are the definitions for the population values:
        - CNA - Community, Non Dual, Aged (default)
        - CND - Community, Non Dual, Disabled
        - CPA - Community, Partial Dual, Aged
        - CPD - Community, Partial Dual, Disabled
        - CFA - Community, Full Dual, Aged
        - CFD - Community, Full Dual, Disabled
        - INS - Institutional
        - NE - CMS New Enrollee
        ".

Definition populations : list value :=
  map VStr ["CNA"; "CND"; "CPA"; "CPD"; "CFA"; "CFD"; "INS"; "NE"].

Definition main (engine : ScoreCall -> res Result) (inp : Inputs) : App unit :=
  emit st.Main (st.Title "Risk Adjustment Model Runner") ;;
  emit st.Main (st.Markdown intro_text) ;;
  emit st.Sidebar (st.Markdown model_selection_text) ;;
  model_version <-
    selectbox "Model Verison" [VStr "V24"; VStr "V28"] (in_model_version inp) ;;
  emit st.Sidebar (st.Markdown model_inputs_text) ;;
  gender <- selectbox "Gender" [VStr "M"; VStr "F"] (in_gender inp) ;;
  emit st.Sidebar (st.Markdown orec_link) ;;
  orec_entered <- number_input "OREC" (Some 0%Z) (Some 3%Z) 1 (in_orec inp) ;;
  let orec := json.int_repr orec_entered in
  age <- number_input "Age" (Some 0%Z) None 1 (in_age inp) ;;
  medicaid <-
    selectbox "Medicaid" [VBool true; VBool false] (in_medicaid inp) ;;
  diagnosis_codes <-
    text_input "Diagnosis Codes (comma-separated)" (in_diagnosis_codes inp) ;;
  year <- number_input "Year" (Some 2020%Z) None 1 (in_year inp) ;;
  emit st.Sidebar (st.Markdown population_text) ;;
  population <- selectbox "Population" populations (in_population inp) ;;
  calculate <- button "Calculate" (in_calculate inp) ;;
  if calculate : bool then
    diagnosis_codes_list <- lift (split diagnosis_codes ",") ;;
    let model :=
      if String.eqb model_version "V24" then MedicareModelV24 year
      else MedicareModelV28 year in
    result <- score_with engine
                {| call_model := model;
                   call_gender := gender;
                   call_orec := orec;
                   call_age := age;
                   call_medicaid := medicaid;
                   call_population := population;
                   call_diagnosis_codes := diagnosis_codes_list;
                   call_verbose := true |} ;;
    display_score_results result ;;
    display_category_details (category_details result) ;;
    display_score_breakdown result ;;
    download_results result
  else ret tt.

(** The sidebar and heading every run writes before it looks at the
    button. *)
Definition form : list (st.container * st.element) :=
  [ (st.Main, st.Title "Risk Adjustment Model Runner");
    (st.Main, st.Markdown intro_text);
    (st.Sidebar, st.Markdown model_selection_text);
    (st.Sidebar, st.SelectBox "Model Verison" [VStr "V24"; VStr "V28"]);
    (st.Sidebar, st.Markdown model_inputs_text);
    (st.Sidebar, st.SelectBox "Gender" [VStr "M"; VStr "F"]);
    (st.Sidebar, st.Markdown orec_link);
    (st.Sidebar, st.NumberInput "OREC" (Some 0%Z) (Some 3%Z) 1);
    (st.Sidebar, st.NumberInput "Age" (Some 0%Z) None 1);
    (st.Sidebar, st.SelectBox "Medicaid" [VBool true; VBool false]);
    (st.Sidebar, st.TextInput "Diagnosis Codes (comma-separated)");
    (st.Sidebar, st.NumberInput "Year" (Some 2020%Z) None 1);
    (st.Sidebar, st.Markdown population_text);
    (st.Sidebar, st.SelectBox "Population" populations);
    (st.Sidebar, st.Button "Calculate") ].

Definition new_session : Session := {| page := []; calls := [] |}.

(** ** Vocabulary of the statements *)

(** Float literals of the source and of the scenarios. *)
Definition f0 : PyFloat.float := S754_zero false.
Definition f1 : PyFloat.float := PyFloat.of_Z 1.

(** [x != 0] *)
Definition nonzero (x : PyFloat.float) : Prop := PyFloat.eqb x f0 = false.

(** The call [main] makes to the engine. *)
Definition score_call (inp : Inputs) : ScoreCall :=
  {| call_model :=
       if String.eqb (in_model_version inp) "V24"
       then MedicareModelV24 (in_year inp) else MedicareModelV28 (in_year inp);
     call_gender := in_gender inp;
     call_orec := json.int_repr (in_orec inp);
     call_age := in_age inp;
     call_medicaid := in_medicaid inp;
     call_population := in_population inp;
     call_diagnosis_codes := split_aux "," 0 "" (in_diagnosis_codes inp);
     call_verbose := true |}.

(** The table of scores [display_score_results] builds. *)
Definition score_table (result : Result) : pd.DataFrame :=
  pd.from_dict
    [ ("Adjusted",
       [ ("Score", VFloat (score result));
         ("Disease Score", VFloat (disease_score result));
         ("Demographic Score", VFloat (demographic_score result)) ]);
      ("Unadjusted",
       [ ("Score", VFloat (score_raw result));
         ("Disease Score", VFloat (disease_score_raw result));
         ("Demographic Score", VFloat (demographic_score_raw result)) ]) ].

(** The two tables, as elements of the page. *)
Definition tables (result : Result) : list (st.container * st.element) :=
  [ (st.Main, st.Text "Scores Table");
    (st.Main, st.Frame (score_table result));
    (st.Main, st.Text "Category Details Table");
    (st.Main, st.Frame (pd.from_dict (category_details result))) ].

(** The pair of charts and the download button. *)
Definition charts_and_download (result : Result) (fig2 : go.Figure)
  : list (st.container * st.element) :=
  [ (st.Main, st.Columns 2);
    (st.Column 0 2, st.PlotlyChart (score_comparison result) true);
    (st.Column 1 2, st.PlotlyChart fig2 true);
    (st.Main,
     st.DownloadButton "Download JSON" (json.dumps (asdict result) 4)
                       "results.json" "application/json") ].

Definition is_pie_chart (e : st.container * st.element) : bool :=
  match snd e with
  | st.PlotlyChart fig _ =>
      existsb (fun t => match t with go.PieTrace _ => true | _ => false end)
              (go.data fig)
  | _ => false
  end.

(** What a run has added to the page. *)
Definition written (before after : Session) : list (st.container * st.element) :=
  skipn (List.length (page before)) (page after).

(** A result with the given scores, for the scenarios. *)
Definition result_of (s sr d dm dr dmr : PyFloat.float)
  (cd : dict (dict value)) : Result :=
  {| score := s; score_raw := sr; disease_score := d; demographic_score := dm;
     disease_score_raw := dr; demographic_score_raw := dmr;
     category_details := cd |}.

Definition zero_score_result : Result := result_of f0 f0 f0 f0 f0 f0 [].

(** The result of the spec's scenarios: score 100 from 90, disease 60,
    demographic 40, and the two categories of scenario 3. *)
Definition scenario_result : Result :=
  result_of (PyFloat.of_Z 100) (PyFloat.of_Z 90) (PyFloat.of_Z 60)
            (PyFloat.of_Z 40) (PyFloat.of_Z 50) (PyFloat.of_Z 40)
            [ ("HCC1", [("weight", VFloat (PyFloat.of_decimal false 3 (-1)))]);
              ("HCC2", []) ].

Definition sample_inputs : Inputs :=
  {| in_model_version := "V24"; in_gender := "M"; in_orec := 0;
     in_age := 70; in_medicaid := false; in_diagnosis_codes := "";
     in_year := 2024; in_population := "CNA"; in_calculate := true |}.

(** [x + (1 - x) == 1] *)
Definition unit_sum (x : PyFloat.float) : bool :=
  PyFloat.eqb (PyFloat.add x (PyFloat.sub f1 x)) f1.

(** A float greater than 1: an infinity, or a finite float of a higher
    binade than 1, or of the binade of 1 with a larger mantissa. *)
Definition above_one (r : PyFloat.float) : Prop :=
  r = S754_infinity false \/
  exists p e, r = S754_finite false p e /\
              (-52 < e \/ (e = -52 /\ 2 ^ 52 < Zpos p))%Z.

(** A result whose disease component is slightly negative:
    score 1000 = -1 + 1001. *)
Definition negative_share_result : Result :=
  result_of (PyFloat.of_Z 1000) (PyFloat.of_Z 1000) (PyFloat.of_Z (-1))
            (PyFloat.of_Z 1001) (PyFloat.of_Z (-1)) (PyFloat.of_Z 1001) [].

(** A result whose disease component is 29 out of 100. *)
Definition result_29 : Result :=
  result_of (PyFloat.of_Z 100) (PyFloat.of_Z 90) (PyFloat.of_Z 29)
            (PyFloat.of_Z 71) (PyFloat.of_Z 20) (PyFloat.of_Z 70) [].

(** The hover annotations of the breakdown chart, series by series. *)
Definition hover_annotations (result : Result) : res (list (string * option string)) :=
  match score_breakdown result with
  | Ok fig =>
      Ok (map (fun t => match t with
                        | go.BarTrace b => (go.name b, go.hovertemplate b)
                        | go.PieTrace _ => ("", None)
                        end) (go.data fig))
  | Raise e => Raise e
  end.

(** The number of decimals of the percentage in a hover annotation: the
    characters between the decimal point and the percent sign. *)
Fixpoint count_to_percent (s : string) : nat :=
  match s with
  | EmptyString => 0
  | String c s' => if Ascii.eqb c "%" then 0 else S (count_to_percent s')
  end.

Fixpoint hover_decimals (h : string) : nat :=
  match h with
  | EmptyString => 0
  | String c h' => if Ascii.eqb c "." then count_to_percent h' else hover_decimals h'
  end.





(** *** Vocabulary of the export round trip *)











(** Induction on values, through the lists and dictionaries they hold. *)
Section ValueInduction.
Variable P : value -> Prop.
Hypothesis HNone : P VNone.
Hypothesis HBool : forall b, P (VBool b).
Hypothesis HInt : forall z, P (VInt z).
Hypothesis HFloat : forall x, P (VFloat x).
Hypothesis HStr : forall s, P (VStr s).
Hypothesis HList : forall l, Forall P l -> P (VList l).
Hypothesis HDict : forall d, Forall (fun kv => P (snd kv)) d -> P (VDict d).

End ValueInduction.








(** * Properties *)

(** ** The run of [main] *)

Lemma split_comma (s : string) : split s "," = Ok (split_aux "," 0 "" s).
Proof. reflexivity. Qed.

Lemma main_eq (engine : ScoreCall -> res Result) (inp : Inputs) (s : Session) :
  main engine inp s =
  let s1 := {| page := page s ++ form; calls := calls s |} in
  if in_calculate inp then
    (result <- score_with engine (score_call inp) ;;
     display_score_results result ;;
     display_category_details (category_details result) ;;
     display_score_breakdown result ;;
     download_results result) s1
  else (s1, Ok tt).
Proof.
  unfold main, selectbox, number_input, text_input, button, bind, emit, ret,
    lift, score_call.
  cbn [page calls fst snd].
  repeat rewrite <- app_assoc. cbn [app].
  destruct (in_calculate inp); reflexivity.
Qed.

Lemma render_tables (result : Result) (s : Session) :
  (display_score_results result ;;
   display_category_details (category_details result)) s =
  ({| page := page s ++ tables result; calls := calls s |}, Ok tt).
Proof.
  unfold display_score_results, display_category_details, bind, emit, tables,
    score_table.
  cbn [page calls]. repeat rewrite <- app_assoc. reflexivity.
Qed.

Lemma render_charts (result : Result) (fig2 : go.Figure) (s : Session) :
  score_breakdown result = Ok fig2 ->
  (display_score_breakdown result ;; download_results result) s =
  ({| page := page s ++ charts_and_download result fig2; calls := calls s |},
   Ok tt).
Proof.
  intros Hfig.
  unfold display_score_breakdown, download_results, bind, emit, lift,
    charts_and_download.
  rewrite Hfig. cbn [page calls]. repeat rewrite <- app_assoc. reflexivity.
Qed.

Lemma breakdown_raises (result : Result) (e : exn) (s : Session) :
  score_breakdown result = Raise e ->
  (display_score_breakdown result ;; download_results result) s = (s, Raise e).
Proof.
  intros Hfig. unfold display_score_breakdown, bind, lift.
  rewrite Hfig. reflexivity.
Qed.

(** The run of a calculate action, up to the charts. *)
Lemma main_calculate (engine : ScoreCall -> res Result) (inp : Inputs)
  (result : Result) (s : Session) :
  in_calculate inp = true ->
  engine (score_call inp) = Ok result ->
  main engine inp s =
  (display_score_breakdown result ;; download_results result)
    {| page := page s ++ form ++ tables result;
       calls := calls s ++ [score_call inp] |}.
Proof.
  intros Hcalc Hengine. rewrite main_eq, Hcalc. cbv zeta.
  unfold bind at 1. unfold score_with at 1. rewrite Hengine.
  cbn [page calls].
  change (display_score_results result ;;
          display_category_details (category_details result) ;;
          display_score_breakdown result ;; download_results result)
    with (fun s0 : Session =>
            match (display_score_results result ;;
                   display_category_details (category_details result)) s0
            with
            | (s', Ok _) =>
                (display_score_breakdown result ;; download_results result) s'
            | (s', Raise e) => (s', Raise e)
            end) at 1.
  cbv beta. rewrite render_tables. cbn [page calls].
  rewrite <- app_assoc. reflexivity.
Qed.

(** ** The proportions *)

Lemma derived_proportions_nonzero (result : Result) :
  nonzero (score result) ->
  derived_proportions result =
  Ok (PyFloat.round (PyFloat.div (disease_score result) (score result)) 3,
      PyFloat.sub f1
        (PyFloat.round (PyFloat.div (disease_score result) (score result)) 3)).
Proof.
  intros Hnz. unfold derived_proportions, PyFloat.truediv.
  unfold nonzero, f0 in Hnz. rewrite Hnz. reflexivity.
Qed.

Lemma derived_proportions_zero (result : Result) :
  PyFloat.eqb (score result) f0 = true ->
  derived_proportions result = Raise ZeroDivisionError.
Proof.
  intros Hz. unfold derived_proportions, PyFloat.truediv.
  unfold f0 in Hz. rewrite Hz. reflexivity.
Qed.

Lemma score_breakdown_zero (result : Result) :
  PyFloat.eqb (score result) f0 = true ->
  score_breakdown result = Raise ZeroDivisionError.
Proof.
  intros Hz. unfold score_breakdown.
  rewrite (derived_proportions_zero _ Hz). reflexivity.
Qed.

Lemma score_breakdown_nonzero (result : Result) :
  nonzero (score result) ->
  exists fig2, score_breakdown result = Ok fig2.
Proof.
  intros Hnz. unfold score_breakdown.
  rewrite (derived_proportions_nonzero _ Hnz). eexists. reflexivity.
Qed.

(** ** Score table (C3) *)

(** C3: for every result the table of scores has the rows Adjusted and
    Unadjusted under the columns Score, Disease Score, Demographic Score;
    the Adjusted row holds (score, disease_score, demographic_score) and the
    Unadjusted row (score_raw, disease_score_raw, demographic_score_raw); it
    is what [display_score_results] writes under the heading. *)
Theorem score_table_rows (result : Result) (s : Session) :
  display_score_results result s =
    ({| page := page s ++ [ (st.Main, st.Text "Scores Table");
                            (st.Main, st.Frame (score_table result)) ];
        calls := calls s |}, Ok tt) /\
  pd.index (score_table result) = ["Adjusted"; "Unadjusted"] /\
  pd.columns (score_table result) =
    ["Score"; "Disease Score"; "Demographic Score"] /\
  pd.row (score_table result) "Adjusted" =
    [ Some (VFloat (score result)); Some (VFloat (disease_score result));
      Some (VFloat (demographic_score result)) ] /\
  pd.row (score_table result) "Unadjusted" =
    [ Some (VFloat (score_raw result));
      Some (VFloat (disease_score_raw result));
      Some (VFloat (demographic_score_raw result)) ].
Proof.
  split.
  - unfold display_score_results, bind, emit, score_table.
    cbn [page calls]. rewrite <- app_assoc. reflexivity.
  - repeat split; reflexivity.
Qed.

(** ** Score comparison chart (C6) *)

(** C6: for every result the comparison figure holds exactly two bar
    series of one point each, "Unadjusted Score" with the value score_raw
    and "Score" with the value score; with score_raw = 90 and score = 100
    the bars are 90 and 100. *)
Theorem score_comparison_bars (result : Result) :
  go.data (score_comparison result) =
    [ go.BarTrace {| go.x := ["Unadjusted Score"];
                     go.y := [score_raw result];
                     go.name := "Unadjusted Score";
                     go.marker_color := Some "lightsalmon";
                     go.hovertemplate := None |};
      go.BarTrace {| go.x := ["Score"];
                     go.y := [score result];
                     go.name := "Score";
                     go.marker_color := Some "indianred";
                     go.hovertemplate := None |} ] /\
  go.barmode (go.layout (score_comparison result)) = Some "group" /\
  forall d dm dr dmr cd,
    map (fun t => match t with
                  | go.BarTrace b => (go.name b, go.x b, go.y b)
                  | go.PieTrace _ => ("", [], [])
                  end)
        (go.data (score_comparison
                    (result_of (PyFloat.of_Z 100) (PyFloat.of_Z 90)
                               d dm dr dmr cd))) =
    [ ("Unadjusted Score", ["Unadjusted Score"], [PyFloat.of_Z 90]);
      ("Score", ["Score"], [PyFloat.of_Z 100]) ].
Proof.
  repeat split.
Qed.

(** ** The call to the engine (C9) *)




(** ** A result whose score is zero (C2) *)

(** C2, as stated, fails: a calculate action whose result has score 0 ends
    in an uncaught ZeroDivisionError. *)
Lemma zero_score_raises :
  PyFloat.eqb (score zero_score_result) f0 = true /\
  snd (main (fun _ => Ok zero_score_result) sample_inputs new_session) =
    Raise ZeroDivisionError.
Proof. split; vm_compute; reflexivity. Qed.

(** C2, amended: when the result of a calculate action has score 0, the
    two tables are written, then [score_breakdown] raises
    ZeroDivisionError, which nothing catches: the run ends there, with no
    chart, no notice and no download button on the page. *)
Theorem zero_score_run (engine : ScoreCall -> res Result) (inp : Inputs)
  (result : Result) (s : Session) :
  in_calculate inp = true ->
  engine (score_call inp) = Ok result ->
  PyFloat.eqb (score result) f0 = true ->
  main engine inp s =
  ({| page := page s ++ form ++ tables result;
      calls := calls s ++ [score_call inp] |},
   Raise ZeroDivisionError).
Proof.
  intros Hcalc Hengine Hzero.
  rewrite (main_calculate _ _ _ _ Hcalc Hengine).
  apply breakdown_raises, score_breakdown_zero, Hzero.
Qed.

Lemma zero_score_run_witness :
  in_calculate sample_inputs = true /\
  (fun _ : ScoreCall => Ok zero_score_result) (score_call sample_inputs) =
    Ok zero_score_result /\
  PyFloat.eqb (score zero_score_result) f0 = true /\
  main (fun _ => Ok zero_score_result) sample_inputs new_session =
  ({| page := form ++ tables zero_score_result;
      calls := [score_call sample_inputs] |},
   Raise ZeroDivisionError).
Proof.
  split; [reflexivity | split; [reflexivity | split; [reflexivity |]]].
  exact (zero_score_run (fun _ => Ok zero_score_result) sample_inputs
           zero_score_result new_session eq_refl eq_refl eq_refl).
Defined.

(** ** What a calculate action writes (C10) *)

(** C10, as stated, fails: the run of a calculate action whose result has
    score 0 does not write the charts and the download button. *)
Lemma zero_score_page :
  ~ exists fig2,
      page (fst (main (fun _ => Ok zero_score_result) sample_inputs new_session)) =
      (form ++ tables zero_score_result ++
       charts_and_download zero_score_result fig2)%list.
Proof.
  intros [fig2 Hpage].
  apply (f_equal (@List.length _)) in Hpage.
  vm_compute in Hpage. discriminate Hpage.
Qed.

Lemma written_app (s : Session) (l : list (st.container * st.element))
  (c : list ScoreCall) :
  written s {| page := page s ++ l; calls := c |} = l.
Proof.
  unfold written. cbn [page].
  induction (page s) as [| a p IH]; [reflexivity | exact IH].
Qed.

Lemma no_pie_in_form : existsb is_pie_chart form = false.
Proof. reflexivity. Qed.

Lemma no_pie_in_tables (result : Result) :
  existsb is_pie_chart (tables result) = false.
Proof. reflexivity. Qed.

Lemma no_pie_in_charts (result : Result) (fig2 : go.Figure) :
  score_breakdown result = Ok fig2 ->
  existsb is_pie_chart (charts_and_download result fig2) = false.
Proof.
  unfold score_breakdown.
  destruct (derived_proportions result) as [[pct dem] | e]; [| discriminate].
  intros [= <-]. reflexivity.
Qed.

(** Whatever the inputs and the engine's answer, no run of [main] writes a
    chart that holds a pie: [display_score_breakdown_pct] is not called. *)
Lemma main_writes_no_pie (engine : ScoreCall -> res Result) (inp : Inputs)
  (s : Session) :
  existsb is_pie_chart (written s (fst (main engine inp s))) = false.
Proof.
  destruct (in_calculate inp) eqn:Hcalc.
  - destruct (engine (score_call inp)) as [result | e] eqn:Hengine.
    + rewrite (main_calculate _ _ _ _ Hcalc Hengine).
      destruct (score_breakdown result) as [fig2 | e] eqn:Hfig.
      * rewrite (render_charts _ _ _ Hfig). cbn [fst page calls].
        rewrite <- app_assoc, written_app, !existsb_app.
        rewrite no_pie_in_form, no_pie_in_tables,
          (no_pie_in_charts _ _ Hfig). reflexivity.
      * rewrite (breakdown_raises _ _ _ Hfig). cbn [fst].
        rewrite written_app, existsb_app.
        rewrite no_pie_in_form, no_pie_in_tables. reflexivity.
    + rewrite main_eq, Hcalc. cbv zeta.
      unfold bind at 1. unfold score_with at 1. rewrite Hengine.
      cbn [fst page]. rewrite written_app. apply no_pie_in_form.
  - rewrite main_eq, Hcalc. cbn [fst]. rewrite written_app.
    apply no_pie_in_form.
Qed.

(** C10, amended: a calculate action whose result has a score other than
    0 adds to the page, after the input form, exactly the table of scores,
    the table of category details, the two charts side by side and the
    download button, and ends normally; none of these elements is a pie
    chart. *)
Theorem calculate_output (engine : ScoreCall -> res Result) (inp : Inputs)
  (result : Result) (s : Session) :
  in_calculate inp = true ->
  engine (score_call inp) = Ok result ->
  nonzero (score result) ->
  exists fig2,
    score_breakdown result = Ok fig2 /\
    main engine inp s =
    ({| page := page s ++ form ++ tables result ++
                charts_and_download result fig2;
        calls := calls s ++ [score_call inp] |}, Ok tt) /\
    existsb is_pie_chart
      (form ++ tables result ++ charts_and_download result fig2) = false.
Proof.
  intros Hcalc Hengine Hnz.
  destruct (score_breakdown_nonzero _ Hnz) as [fig2 Hfig].
  exists fig2. split; [exact Hfig | split].
  - rewrite (main_calculate _ _ _ _ Hcalc Hengine).
    rewrite (render_charts _ _ _ Hfig). cbn [page calls].
    repeat rewrite <- app_assoc. reflexivity.
  - rewrite !existsb_app.
    rewrite no_pie_in_form, no_pie_in_tables, (no_pie_in_charts _ _ Hfig).
    reflexivity.
Qed.

Lemma calculate_output_witness :
  in_calculate sample_inputs = true /\
  (fun _ : ScoreCall => Ok scenario_result) (score_call sample_inputs) =
    Ok scenario_result /\
  nonzero (score scenario_result) /\
  exists fig2,
    score_breakdown scenario_result = Ok fig2 /\
    main (fun _ => Ok scenario_result) sample_inputs new_session =
    ({| page := form ++ tables scenario_result ++
                charts_and_download scenario_result fig2;
        calls := [score_call sample_inputs] |}, Ok tt) /\
    existsb is_pie_chart
      (form ++ tables scenario_result ++
       charts_and_download scenario_result fig2) = false.
Proof.
  split; [reflexivity | split; [reflexivity | split; [reflexivity |]]].
  exact (calculate_output (fun _ => Ok scenario_result) sample_inputs
           scenario_result new_session eq_refl eq_refl eq_refl).
Defined.

(** ** Score proportion chart (C5) *)

(** C5: for every result whose score is not 0, the proportion figure is a
    pie with the labels Disease Score and Demographic Score and the values
    disease_score_pct and demographic_score_pct, that is
    round(disease_score / score, 3) and 1 minus it; with score = 100 and
    disease_score = 60 the values are 0.6 and 0.4. *)
Theorem proportion_pie (result : Result) (s : Session) :
  nonzero (score result) ->
  let pct :=
    PyFloat.round (PyFloat.div (disease_score result) (score result)) 3 in
  let dem := PyFloat.sub f1 pct in
  derived_proportions result = Ok (pct, dem) /\
  display_score_breakdown_pct result s =
    ({| page := page s ++
          [ (st.Main,
             st.PlotlyChart
               {| go.data :=
                    [ go.PieTrace
                        {| go.labels := ["Disease Score"; "Demographic Score"];
                           go.values := [pct; dem];
                           go.hole := PyFloat.of_decimal false 3 (-1) |} ];
                  go.layout :=
                    {| go.title_text := Some "Scores Proportion";
                       go.xaxis_title := None; go.yaxis_title := None;
                       go.barmode := None |} |}
               false) ];
        calls := calls s |}, Ok tt) /\
  (score result = PyFloat.of_Z 100 ->
   disease_score result = PyFloat.of_Z 60 ->
   [pct; dem] =
   [PyFloat.of_decimal false 6 (-1); PyFloat.of_decimal false 4 (-1)]).
Proof.
  intros Hnz pct dem.
  pose proof (derived_proportions_nonzero _ Hnz) as Hd.
  fold pct in Hd. fold dem in Hd.
  split; [exact Hd | split].
  - unfold display_score_breakdown_pct, bind, lift, emit. rewrite Hd.
    reflexivity.
  - intros Hs Hdis. unfold dem, pct. rewrite Hs, Hdis.
    vm_compute. reflexivity.
Qed.

Lemma proportion_pie_witness :
  nonzero (score scenario_result) /\
  [ PyFloat.round
      (PyFloat.div (disease_score scenario_result) (score scenario_result)) 3;
    PyFloat.sub f1
      (PyFloat.round
         (PyFloat.div (disease_score scenario_result) (score scenario_result))
         3) ] =
  [PyFloat.of_decimal false 6 (-1); PyFloat.of_decimal false 4 (-1)].
Proof.
  split; [reflexivity |].
  exact (proj2 (proj2 (proportion_pie scenario_result new_session eq_refl))
           eq_refl eq_refl).
Defined.

(** ** The two proportions sum to one (C1) *)

Open Scope Z_scope.

Lemma div_half_even_bounds (a b : Z) :
  a / b <= PyFloat.div_half_even a b <= a / b + 1.
Proof.
  unfold PyFloat.div_half_even.
  destruct (2 * (a mod b) ?= b); [destruct (Z.even (a / b)) | |]; lia.
Qed.

Lemma log2_ratio_nonneg (a b : Z) :
  0 < b -> b <= a ->
  0 <= PyFloat.log2_ratio a b /\ b * 2 ^ PyFloat.log2_ratio a b <= a.
Proof.
  intros Hb Hab.
  assert (Hd : 0 <= Z.log2 a - Z.log2 b)
    by (pose proof (Z.log2_le_mono b a Hab); lia).
  unfold PyFloat.log2_ratio.
  set (d := Z.log2 a - Z.log2 b) in *.
  destruct (0 <=? d) eqn:H0; [| apply Z.leb_gt in H0; lia].
  destruct (b * 2 ^ d <=? a) eqn:Htest.
  - apply Z.leb_le in Htest. split; assumption.
  - apply Z.leb_gt in Htest.
    assert (d <> 0) by (intros ->; rewrite Z.pow_0_r in Htest; lia).
    split; [lia |].
    assert (Hlb : b < 2 ^ (Z.log2 b + 1))
      by (pose proof (Z.log2_spec b Hb); lia).
    assert (Hla : 2 ^ Z.log2 a <= a)
      by (pose proof (Z.log2_spec a ltac:(lia)); lia).
    assert (Hpow : 2 ^ Z.log2 a = 2 ^ (Z.log2 b + 1) * 2 ^ (d - 1)).
    { rewrite <- Z.pow_add_r; [f_equal; lia | | lia].
      pose proof (Z.log2_nonneg b); lia. }
    assert (0 < 2 ^ (d - 1)) by (apply Z.pow_pos_nonneg; lia).
    nia.
Qed.

Lemma above_one_leb (r : PyFloat.float) :
  above_one r -> PyFloat.leb r f1 = false.
Proof.
  intros [-> | (p & e & -> & He)]; [reflexivity |].
  change f1 with (S754_finite false 4503599627370496 (-52)).
  unfold PyFloat.leb, SFleb, SFcompare.
  destruct He as [He | [-> Hp]].
  - destruct (Z.compare_spec e (-52)); try lia; reflexivity.
  - rewrite Z.compare_refl.
    rewrite Pos.compare_cont_spec. cbn [Pos.switch_Eq].
    change (2 ^ 52) with (Zpos 4503599627370496) in Hp.
    assert (Hgt : (p ?= 4503599627370496)%positive = Gt)
      by (apply Pos.compare_gt_iff; lia).
    rewrite Hgt. reflexivity.
Qed.

Lemma nearest_above_one (n : Z) :
  1000 < n -> above_one (PyFloat.nearest_float false n 1000).
Proof.
  intros Hn.
  destruct (log2_ratio_nonneg n 1000 ltac:(lia) ltac:(lia)) as [Hl Hlow].
  unfold PyFloat.nearest_float.
  destruct (n <=? 0) eqn:Hn0; [apply Z.leb_le in Hn0; lia |].
  set (l := PyFloat.log2_ratio n 1000) in *.
  unfold PyFloat.emin. unfold PyFloat.prec, PyFloat.emax. cbv zeta.
  replace (Z.max (l + 1 - 53) (3 - 1024 - 53)) with (l - 52) by lia.
  set (m := if 0 <=? l - 52 then _ else _).
  assert (Hm : 2 ^ 52 <= m /\ (l = 0 -> 2 ^ 52 < m)).
  { subst m. destruct (0 <=? l - 52) eqn:He.
    - apply Z.leb_le in He.
      pose proof (div_half_even_bounds n (1000 * 2 ^ (l - 52))) as Hb.
      assert (Hq : 2 ^ 52 <= n / (1000 * 2 ^ (l - 52))).
      { apply Z.div_le_lower_bound.
        - assert (0 < 2 ^ (l - 52)) by (apply Z.pow_pos_nonneg; lia). lia.
        - replace (1000 * 2 ^ (l - 52) * 2 ^ 52) with (1000 * 2 ^ l); [lia |].
          rewrite <- Z.mul_assoc, <- Z.pow_add_r by lia.
          do 2 f_equal. lia. }
      split; [lia | intros ->; lia].
    - apply Z.leb_gt in He.
      pose proof (div_half_even_bounds (n * 2 ^ (- (l - 52))) 1000) as Hb.
      assert (Hpow : 2 ^ (- (l - 52)) * 2 ^ l = 2 ^ 52)
        by (rewrite <- Z.pow_add_r by lia; f_equal; lia).
      assert (0 < 2 ^ (- (l - 52))) by (apply Z.pow_pos_nonneg; lia).
      split.
      + assert (2 ^ 52 <= n * 2 ^ (- (l - 52)) / 1000); [| lia].
        apply Z.div_le_lower_bound; [lia |]. nia.
      + intros Hl0. rewrite Hl0 in *. cbn in Hb |- *.
        assert (4503599627370496 + 4503599627370 <=
                n * 4503599627370496 / 1000); [| lia].
        apply Z.div_le_lower_bound; lia. }
  clearbody m.
  destruct (m =? 2 ^ 53) eqn:Hcarry.
  - change (2 ^ (53 - 1)) with (Zpos 4503599627370496). cbv iota beta.
    destruct (l - 52 + 1 <=? 1024 - 53); [| left; reflexivity].
    right. eexists _, _. split; [reflexivity |]. left. lia.
  - destruct m as [| p | p]; try lia. cbv iota beta.
    destruct (l - 52 <=? 1024 - 53); [| left; reflexivity].
    right. eexists _, _. split; [reflexivity |].
    destruct (Z.eq_dec l 0) as [Hl0 | Hl0]; [right | left; lia].
    split; [lia | apply Hm, Hl0].
Qed.

Lemma nearest_negative (n : Z) :
  PyFloat.leb f0 (PyFloat.nearest_float true n 1000) = true ->
  PyFloat.nearest_float true n 1000 = S754_zero true.
Proof.
  unfold PyFloat.nearest_float.
  destruct (n <=? 0); [reflexivity |]. cbv zeta.
  match goal with
  | |- context [let '(m', e') := ?c in _] => destruct c as [m' e']
  end.
  destruct m' as [| p | p]; try reflexivity.
  destruct (e' <=? PyFloat.emax - PyFloat.prec); intros H; discriminate H.
Qed.

Lemma unit_sum_grid (n : Z) :
  0 <= n <= 1000 -> unit_sum (PyFloat.nearest_float false n 1000) = true.
Proof.
  intros Hn.
  assert (Hall : forallb
            (fun k => unit_sum (PyFloat.nearest_float false (Z.of_nat k) 1000))
            (seq 0 1001) = true) by (vm_compute; reflexivity).
  rewrite forallb_forall in Hall.
  specialize (Hall (Z.to_nat n)).
  rewrite Z2Nat.id in Hall by lia.
  apply Hall, in_seq. lia.
Qed.

Lemma round3_unit_sum (x : PyFloat.float) :
  PyFloat.leb f0 (PyFloat.round x 3) = true ->
  PyFloat.leb (PyFloat.round x 3) f1 = true ->
  unit_sum (PyFloat.round x 3) = true.
Proof.
  destruct x as [s | s | | s m e]; cbn [PyFloat.round].
  - intros _ _. destruct s; reflexivity.
  - destruct s; intros H0 H1; discriminate.
  - intros H0; discriminate H0.
  - change (323 <? Z.of_nat 3) with false. cbv iota zeta.
    change (10 ^ Z.of_nat 3) with 1000.
    set (n := if 0 <=? e then _ else _).
    assert (Hn : 0 <= n).
    { subst n. destruct (0 <=? e) eqn:He.
      - apply Z.leb_le in He.
        assert (0 < 2 ^ e) by (apply Z.pow_pos_nonneg; lia). nia.
      - apply Z.leb_gt in He.
        pose proof (div_half_even_bounds (Zpos m * 1000) (2 ^ (- e))) as Hb.
        assert (0 <= Zpos m * 1000 / 2 ^ (- e)); [| lia].
        apply Z.div_pos; [lia |]. apply Z.pow_pos_nonneg; lia. }
    clearbody n. destruct s.
    + intros H0 _. rewrite (nearest_negative n H0). reflexivity.
    + intros _ H1. destruct (Z_le_gt_dec n 1000) as [Hle | Hgt].
      * apply unit_sum_grid. lia.
      * rewrite (above_one_leb _ (nearest_above_one n ltac:(lia))) in H1.
        discriminate H1.
Qed.

(** C1, as stated, fails: with score 1000 and disease_score -1 the
    proportions are -0.001 and 1.001, and their sum is 0.9999999999999999. *)
Lemma negative_share_sum :
  nonzero (score negative_share_result) /\
  exists pct dem,
    derived_proportions negative_share_result = Ok (pct, dem) /\
    PyFloat.eqb (PyFloat.add pct dem) f1 = false /\
    PyFloat.repr (PyFloat.add pct dem) = "0.9999999999999999".
Proof.
  split; [reflexivity |].
  eexists _, _. split; [vm_compute; reflexivity |].
  split; vm_compute; reflexivity.
Qed.

(** C1, amended: for every result whose score is not 0,
    disease_score_pct is disease_score / score rounded to 3 decimals and
    demographic_score_pct is 1 - disease_score_pct (a subtraction, not a
    second division); whenever disease_score_pct lies between 0 and 1 the
    two sum to exactly 1. *)
Theorem proportions_sum_to_one (result : Result) :
  nonzero (score result) ->
  let pct :=
    PyFloat.round (PyFloat.div (disease_score result) (score result)) 3 in
  let dem := PyFloat.sub f1 pct in
  derived_proportions result = Ok (pct, dem) /\
  (PyFloat.leb f0 pct = true -> PyFloat.leb pct f1 = true ->
   PyFloat.eqb (PyFloat.add pct dem) f1 = true).
Proof.
  intros Hnz pct dem. split.
  - apply derived_proportions_nonzero, Hnz.
  - intros H0 H1. apply (round3_unit_sum _ H0 H1).
Qed.

Lemma proportions_sum_to_one_witness :
  nonzero (score scenario_result) /\
  PyFloat.eqb
    (PyFloat.add
       (PyFloat.round
          (PyFloat.div (disease_score scenario_result) (score scenario_result))
          3)
       (PyFloat.sub f1
          (PyFloat.round
             (PyFloat.div (disease_score scenario_result)
                          (score scenario_result)) 3))) f1 = true.
Proof.
  split; [reflexivity |].
  exact (proj2 (proportions_sum_to_one scenario_result eq_refl)
           eq_refl eq_refl).
Defined.

(** ** Hover annotations of the breakdown chart (C7) *)

(** C7, as stated, fails: with disease_score 29 out of 100 the two
    annotations of one chart show 28.999999999999996% and 71.0%, fifteen
    decimals against one. *)
Lemma hover_precision_varies :
  hover_annotations result_29 =
    Ok [ ("Disease Score",
          Some "Value: %{y}<br>Pct of Score: 28.999999999999996%<extra></extra>");
         ("Demographic Score",
          Some "Value: %{y}<br>Pct of Score: 71.0%<extra></extra>") ] /\
  hover_decimals
    "Value: %{y}<br>Pct of Score: 28.999999999999996%<extra></extra>" <>
  hover_decimals "Value: %{y}<br>Pct of Score: 71.0%<extra></extra>".
Proof.
  split; [vm_compute; reflexivity | vm_compute; discriminate].
Qed.

(** C7, amended: for every result whose score is not 0, each series of
    the breakdown chart carries a hover annotation, built with the chart,
    that holds the corresponding proportion multiplied by 100 and written
    with [str]: the shortest decimal text that reads back as the product, of
    no fixed number of decimals. *)
Theorem hover_annotation_text (result : Result) :
  nonzero (score result) ->
  exists pct dem,
    derived_proportions result = Ok (pct, dem) /\
    hover_annotations result =
      Ok [ ("Disease Score",
            Some ("Value: %{y}<br>Pct of Score: " ++
                  PyFloat.repr (PyFloat.mul pct (PyFloat.of_Z 100)) ++
                  "%<extra></extra>"));
           ("Demographic Score",
            Some ("Value: %{y}<br>Pct of Score: " ++
                  PyFloat.repr (PyFloat.mul dem (PyFloat.of_Z 100)) ++
                  "%<extra></extra>")) ].
Proof.
  intros Hnz. eexists _, _. split.
  - apply derived_proportions_nonzero, Hnz.
  - unfold hover_annotations, score_breakdown.
    rewrite (derived_proportions_nonzero _ Hnz). reflexivity.
Qed.

Lemma hover_annotation_text_witness :
  nonzero (score result_29) /\
  exists pct dem,
    derived_proportions result_29 = Ok (pct, dem) /\
    hover_annotations result_29 =
      Ok [ ("Disease Score",
            Some ("Value: %{y}<br>Pct of Score: " ++
                  PyFloat.repr (PyFloat.mul pct (PyFloat.of_Z 100)) ++
                  "%<extra></extra>"));
           ("Demographic Score",
            Some ("Value: %{y}<br>Pct of Score: " ++
                  PyFloat.repr (PyFloat.mul dem (PyFloat.of_Z 100)) ++
                  "%<extra></extra>")) ].
Proof.
  split; [reflexivity |].
  exact (hover_annotation_text result_29 eq_refl).
Defined.

(** ** Category detail table (C8) *)

Open Scope string_scope.

Section Dicts.
Context {V : Type}.








End Dicts.

























(** ** The export round trip *)

Open Scope Z_scope.

(** ** Reading back what [repr] writes *)




















Open Scope string_scope.










Lemma read_digits_acc (acc : Z) (s : string) :
  json.read_digits acc s =
  (acc * 10 ^ Z.of_nat (String.length s) + json.read_digits 0 s)%Z.
Proof.
  revert acc. induction s as [| c s IH]; intros acc.
  - cbn. lia.
  - cbn [json.read_digits String.length].
    rewrite IH, (IH (10 * 0 + json.digit_val c)%Z).
    rewrite Nat2Z.inj_succ, Z.pow_succ_r by lia. lia.
Qed.






































(** ** Scalars are read back *)


































